(** * Share lifecycle controller of longhorn-share-manager (pkg/rpc/server.go)

    A shallow embedding of the gRPC handlers [Mount], [Unmount],
    [FilesystemResize], [FilesystemTrim] and of the health-check server.

    The handlers are sequential code run under the server's exclusive lock;
    they are embedded as computations in a small monad that threads the
    share manager (the volume descriptor and its [shareExported] flag) and
    records, in program order, every call made to a collaborator together
    with the answer it gave.  The collaborators (OS mount table, NFS
    exporter, process table, external binaries) are oracles: their answer
    may depend on the whole history of earlier calls.  Log statements have
    no influence on results and are left out. *)

From Stdlib Require Import String Ascii List ZArith Bool Lia.
Import ListNotations.
Open Scope string_scope.
Open Scope list_scope.

(** Go's [error] interface, observed through [err == nil] and [err.Error()]. *)
Definition error := option string.

(** [strings.Contains s substr]. *)
Fixpoint Contains (s substr : string) : bool :=
  String.prefix substr s ||
  match s with
  | EmptyString => false
  | String _ s' => Contains s' substr
  end.

(** [errors.Wrap(err, msg).Error()] for a non-nil [err]. *)
Definition Wrap (e : string) (msg : string) : string :=
  (msg ++ ": " ++ e)%string.

(** The conversion [uint64(x)] of an integer value. *)
Definition to_uint64 (x : Z) : Z := (x mod 2 ^ 64)%Z.

Module grpccodes.
Inductive Code := OK | Internal | InvalidArgument | FailedPrecondition.
End grpccodes.

Module grpcstatus.
(** A non-nil status error: its code and its message. *)
Record Status := { code : grpccodes.Code; message : string }.
Definition Error (c : grpccodes.Code) (msg : string) : option Status :=
  Some {| code := c; message := msg |}.
End grpcstatus.

Module emptypb.
Inductive Empty := mkEmpty.
End emptypb.

Module filesystem.
(** The part of fscrypt's mount record that the handlers read. *)
Record Mount := { DeviceNumber : Z }.
End filesystem.

Module volume.
(** Modelled from the spec: the package pkg/volume that declares [Volume]
    and its method [IsEncrypted] is not part of the sources at hand.  The
    descriptor has a name, a data-engine kind, a passphrase and an
    encryption flag. *)
Record Volume := {
  Name : string;
  DataEngine : string;
  Passphrase : string;
  Encrypted : bool
}.
Definition IsEncrypted (v : Volume) : bool := Encrypted v.
End volume.

Module server.
(** Modelled from the spec: pkg/server declares [ShareManager]; the
    handlers use it through [GetVolume], [ShareIsExported],
    [SetShareExported] and [MountVolume].  It owns the single volume
    descriptor and the mutable flag [shareExported]. *)
Record ShareManager := {
  vol : volume.Volume;
  shareExported : bool
}.
End server.

(** The pointer results [&emptypb.Empty{}] and [nil]. *)
Definition Resp := option emptypb.Empty.
Definition Result := (Resp * option grpcstatus.Status)%type.

Definition success : Result := (Some emptypb.mkEmpty, None).

(** ** Calls to collaborators *)

Inductive Event :=
| EvFindProcessByName (name : string) (err : error)
| EvSetShareExported (b : bool)
| EvCheckDeviceValid (devicePath : string) (valid : bool)
| EvGetMount (mountPath : string) (r : filesystem.Mount + string)
| EvGetDeviceNumber (devicePath : string) (r : Z + string)
| EvIsMountPoint (mountPath : string) (r : bool * error)
| EvReadDir (mountPath : string) (err : error)
| EvExecute (envs : list string) (binary : string) (args : list string)
            (timeout : Z) (err : error)
| EvGetDiskFormat (rawDevicePath : string) (r : string + string)
| EvResizeEncryptoDevice (name dataEngine passphrase : string) (err : error)
| EvResizeVolume (devicePath mountPath : string) (r : bool * error)
| EvNewExporter (configPath exportPath : string) (err : error)
| EvDeleteExport (name : string) (err : error)
| EvCreateExport (name : string) (err : error)
| EvReloadExport (err : error)
| EvUnmountVolume (mountPath : string) (err : error)
| EvMountVolume (v : volume.Volume) (devicePath mountPath : string) (err : error)
| EvSleep (d : Z).

Definition History := list Event.

(** The collaborators.  Each oracle receives the calls made so far.  A Go
    result [(v, err)] whose [v] is only read when [err == nil] is a sum;
    where the code reads [v] first ([IsMountPoint]) it is a pair.  Results
    the handlers discard (the process found, the directory entries, the
    command output, the exporter handle, the export id) are not kept. *)
Record Adapters := {
  FindProcessByName : History -> string -> error;
  CheckDeviceValid : History -> string -> bool;
  GetMount : History -> string -> filesystem.Mount + string;
  GetDeviceNumber : History -> string -> Z + string;
  IsMountPoint : History -> string -> bool * error;
  ReadDir : History -> string -> error;
  Execute : History -> list string -> string -> list string -> Z -> error;
  GetDiskFormat : History -> string -> string + string;
  ResizeEncryptoDevice : History -> string -> string -> string -> error;
  ResizeVolume : History -> string -> string -> bool * error;
  NewExporter : History -> string -> string -> error;
  DeleteExport : History -> string -> error;
  CreateExport : History -> string -> error;
  ReloadExport : History -> error;
  UnmountVolume : History -> string -> error;
  MountVolume : History -> volume.Volume -> string -> string -> error
}.

(** Pure helpers and constants of packages that are not part of the sources
    at hand (pkg/types and go-common-libs/types); they are parameters. *)
Record Platform := {
  GetVolumeDevicePath : string -> string -> bool -> string;
  GetMountPath : string -> string;
  GetRawVolumeDevicePath : string -> string;
  ExportPath : string;
  BinaryFstrim : string;
  ExecuteDefaultTimeout : Z
}.

(** ** The handler monad *)

Definition M (A : Type) : Type :=
  server.ShareManager -> History -> A * server.ShareManager * list Event.

Definition ret {A} (a : A) : M A := fun m _ => (a, m, []).

Definition bind {A B} (c : M A) (f : A -> M B) : M B :=
  fun m h =>
    let '(a, m1, e1) := c m h in
    let '(b, m2, e2) := f a m1 (h ++ e1) in
    (b, m2, e1 ++ e2).

Declare Scope handler_scope.
Delimit Scope handler_scope with handler.
Notation "x <- c ;; k" := (bind c (fun x => k))
  (at level 100, c at next level, right associativity) : handler_scope.
Notation "c ;;; k" := (bind c (fun _ => k))
  (at level 100, right associativity) : handler_scope.
Open Scope handler_scope.

(** A call to a collaborator: ask the oracle, record call and answer. *)
Definition call {A} (ask : History -> A) (ev : A -> Event) : M A :=
  fun m h => let r := ask h in (r, m, [ev r]).

Definition GetVolume : M volume.Volume :=
  fun m _ => (server.vol m, m, []).

Definition ShareIsExported : M bool :=
  fun m _ => (server.shareExported m, m, []).

Definition SetShareExported (b : bool) : M unit :=
  fun m _ => (tt, {| server.vol := server.vol m; server.shareExported := b |},
              [EvSetShareExported b]).

Definition Sleep (d : Z) : M unit := fun m _ => (tt, m, [EvSleep d]).

(** ** The handlers of pkg/rpc/server.go *)

Definition configPath : string := "/tmp/vfs.conf".
Definition unmountRetryCount : nat := 30.
Definition unmountRetryInterval : Z := 1.

Definition is_nil (e : error) : bool :=
  match e with None => true | Some _ => false end.

Section Handlers.

Variable P : Platform.
Variable A : Adapters.

Definition nfsServerIsRunning : M bool :=
  err <- call (fun h => FindProcessByName A h "ganesha.nfsd")
              (EvFindProcessByName "ganesha.nfsd") ;;
  ret (is_nil err).

Definition FilesystemTrim (EncryptedDevice : bool) : M Result :=
  vol <- GetVolume ;;
  if (volume.Name vol =? "")%string then ret success else
  let devicePath :=
    GetVolumeDevicePath P (volume.Name vol) (volume.DataEngine vol) EncryptedDevice in
  valid <- call (fun h => CheckDeviceValid A h devicePath)
                (EvCheckDeviceValid devicePath) ;;
  if negb valid then
    ret (Some emptypb.mkEmpty,
         grpcstatus.Error grpccodes.FailedPrecondition
           ("volume " ++ volume.Name vol ++ " is not valid")%string)
  else
  let mountPath := GetMountPath P (volume.Name vol) in
  mnt <- call (fun h => GetMount A h mountPath) (EvGetMount mountPath) ;;
  match mnt with
  | inr e => ret (Some emptypb.mkEmpty, grpcstatus.Error grpccodes.Internal e)
  | inl mnt =>
  deviceNumber <- call (fun h => GetDeviceNumber A h devicePath)
                       (EvGetDeviceNumber devicePath) ;;
  match deviceNumber with
  | inr e => ret (Some emptypb.mkEmpty, grpcstatus.Error grpccodes.Internal e)
  | inl deviceNumber =>
  if negb (to_uint64 (filesystem.DeviceNumber mnt) =? to_uint64 deviceNumber)%Z then
    ret (Some emptypb.mkEmpty,
         grpcstatus.Error grpccodes.InvalidArgument
           ("the device of mount point " ++ mountPath ++ " is not expected")%string)
  else
  r <- call (fun h => IsMountPoint A h mountPath) (EvIsMountPoint mountPath) ;;
  let '(isMountPoint, err) := r in
  if negb isMountPoint then
    ret (Some emptypb.mkEmpty,
         grpcstatus.Error grpccodes.InvalidArgument
           (mountPath ++ " is not a mount point")%string)
  else
  match err with
  | Some e => ret (Some emptypb.mkEmpty, grpcstatus.Error grpccodes.Internal e)
  | None =>
  err <- call (fun h => ReadDir A h mountPath) (EvReadDir mountPath) ;;
  match err with
  | Some e => ret (Some emptypb.mkEmpty, grpcstatus.Error grpccodes.Internal e)
  | None =>
  err <- call (fun h => Execute A h [] (BinaryFstrim P) [mountPath]
                                (ExecuteDefaultTimeout P))
              (EvExecute [] (BinaryFstrim P) [mountPath] (ExecuteDefaultTimeout P)) ;;
  match err with
  | Some e => ret (Some emptypb.mkEmpty, grpcstatus.Error grpccodes.Internal e)
  | None => ret success
  end end end end end.

Definition FilesystemResize : M Result :=
  vol <- GetVolume ;;
  if (volume.Name vol =? "")%string then ret success else
  let devicePath :=
    GetVolumeDevicePath P (volume.Name vol) (volume.DataEngine vol)
                        (volume.IsEncrypted vol) in
  valid <- call (fun h => CheckDeviceValid A h devicePath)
                (EvCheckDeviceValid devicePath) ;;
  if negb valid then
    ret (Some emptypb.mkEmpty,
         grpcstatus.Error grpccodes.FailedPrecondition
           ("volume " ++ volume.Name vol ++ " is not valid")%string)
  else
  let mountPath := GetMountPath P (volume.Name vol) in
  mnt <- call (fun h => GetMount A h mountPath) (EvGetMount mountPath) ;;
  match mnt with
  | inr e => ret (Some emptypb.mkEmpty, grpcstatus.Error grpccodes.Internal e)
  | inl _ =>
  (* the [if vol.IsEncrypted()] block; [None]: control falls through *)
  early <-
    (if volume.IsEncrypted vol then
       let rawDevicePath := GetRawVolumeDevicePath P (volume.Name vol) in
       fmt <- call (fun h => GetDiskFormat A h rawDevicePath)
                   (EvGetDiskFormat rawDevicePath) ;;
       match fmt with
       | inr e =>
           ret (Some (Some emptypb.mkEmpty,
                      grpcstatus.Error grpccodes.Internal
                        ("failed to determine disk format of volume "
                           ++ volume.Name vol ++ ": " ++ e)%string))
       | inl diskFormat =>
           if negb (diskFormat =? "crypto_LUKS")%string then
             ret (Some (Some emptypb.mkEmpty,
                        grpcstatus.Error grpccodes.InvalidArgument
                          ("unsupported disk encryption format " ++ diskFormat)%string))
           else
             err <- call (fun h => ResizeEncryptoDevice A h (volume.Name vol)
                                     (volume.DataEngine vol) (volume.Passphrase vol))
                         (EvResizeEncryptoDevice (volume.Name vol)
                                     (volume.DataEngine vol) (volume.Passphrase vol)) ;;
             match err with
             | Some e =>
                 ret (Some (Some emptypb.mkEmpty,
                            grpcstatus.Error grpccodes.Internal
                              ("failed to resize crypto device " ++ devicePath
                                 ++ " for volume " ++ volume.Name vol
                                 ++ " node expansion: " ++ e)%string))
             | None => ret None
             end
       end
     else ret (None : option Result)) ;;
  match early with
  | Some r => ret r
  | None =>
  r <- call (fun h => ResizeVolume A h devicePath mountPath)
            (EvResizeVolume devicePath mountPath) ;;
  match snd r with
  | Some e => ret (Some emptypb.mkEmpty, grpcstatus.Error grpccodes.Internal e)
  | None => ret success
  end end end.

Definition unexport (vol : volume.Volume) : M error :=
  err <- call (fun h => NewExporter A h configPath (ExportPath P))
              (EvNewExporter configPath (ExportPath P)) ;;
  match err with
  | Some e => ret (Some (Wrap e "failed to create nfs exporter"))
  | None =>
  err <- call (fun h => DeleteExport A h (volume.Name vol))
              (EvDeleteExport (volume.Name vol)) ;;
  match err with
  | Some e => ret (Some (Wrap e "failed to delete nfs export"))
  | None =>
  err <- call (ReloadExport A) EvReloadExport ;;
  match err with
  | Some e => ret (Some (Wrap e "failed to reload nfs export"))
  | None => ret None
  end end end.

Definition unmount (vol : volume.Volume) : M error :=
  let mountPath := GetMountPath P (volume.Name vol) in
  r <- call (fun h => IsMountPoint A h mountPath) (EvIsMountPoint mountPath) ;;
  let '(isMountPoint, err) := r in
  match err with
  | Some e => ret (Some (Wrap e ("failed to check mount point " ++ mountPath)%string))
  | None =>
  if negb isMountPoint then ret None else
  call (fun h => UnmountVolume A h mountPath) (EvUnmountVolume mountPath)
  end.

Definition is_busy (err : error) : bool :=
  match err with
  | Some e => Contains e "target is busy"
  | None => false
  end.

(** The loop [for i := 0; i < unmountRetryCount; i++] of [Unmount], by the
    number [n] of iterations still allowed; [err] is the variable the loop
    assigns, returned as it stands when the loop is left. *)
Fixpoint unmount_loop (vol : volume.Volume) (n : nat) (err : error) : M error :=
  match n with
  | O => ret err
  | S k =>
      err <- unmount vol ;;
      if is_busy err then
        Sleep unmountRetryInterval ;;;
        unmount_loop vol k err
      else ret err
  end.

Definition Unmount : M Result :=
  vol <- GetVolume ;;
  if (volume.Name vol =? "")%string then ret success else
  running <- nfsServerIsRunning ;;
  if negb running then ret success else
  SetShareExported false ;;;
  err <- unexport vol ;;
  match err with
  | Some e => ret (None, grpcstatus.Error grpccodes.Internal e)
  | None =>
  err <- unmount_loop vol unmountRetryCount err ;;
  match err with
  | Some e => ret (None, grpcstatus.Error grpccodes.Internal e)
  | None => ret success
  end end.

Definition mount (vol : volume.Volume) (devicePath mountPath : string) : M error :=
  v <- GetVolume ;;
  err <- call (fun h => MountVolume A h v devicePath mountPath)
              (EvMountVolume v devicePath mountPath) ;;
  match err with
  | Some e => ret (Some (Wrap e ("failed to mount volume " ++ volume.Name vol)%string))
  | None => ret None
  end.

Definition export (vol : volume.Volume) : M error :=
  err <- call (fun h => NewExporter A h configPath (ExportPath P))
              (EvNewExporter configPath (ExportPath P)) ;;
  match err with
  | Some e => ret (Some (Wrap e "failed to create nfs exporter"))
  | None =>
  err <- call (fun h => CreateExport A h (volume.Name vol))
              (EvCreateExport (volume.Name vol)) ;;
  match err with
  | Some e => ret (Some (Wrap e "failed to delete nfs export"))
  | None =>
  err <- call (ReloadExport A) EvReloadExport ;;
  match err with
  | Some e => ret (Some (Wrap e "failed to reload nfs export"))
  | None => ret None
  end end end.

Definition Mount : M Result :=
  vol <- GetVolume ;;
  if (volume.Name vol =? "")%string then ret success else
  running <- nfsServerIsRunning ;;
  if negb running then ret success else
  exported <- ShareIsExported ;;
  if exported then ret success else
  let devicePath :=
    GetVolumeDevicePath P (volume.Name vol) (volume.DataEngine vol) false in
  let mountPath := GetMountPath P (volume.Name vol) in
  r <- call (fun h => IsMountPoint A h mountPath) (EvIsMountPoint mountPath) ;;
  let '(isMountPoint, err) := r in
  match err with
  | Some e =>
      ret (Some emptypb.mkEmpty,
           grpcstatus.Error grpccodes.Internal
             (Wrap e ("failed to check mount point " ++ mountPath)%string))
  | None =>
  err <- (if negb isMountPoint then mount vol devicePath mountPath else ret None) ;;
  match err with
  | Some e => ret (None, grpcstatus.Error grpccodes.Internal e)
  | None =>
  err <- export vol ;;
  match err with
  | Some e => ret (None, grpcstatus.Error grpccodes.Internal e)
  | None =>
  SetShareExported true ;;;
  ret success
  end end end.

End Handlers.

(** ** The health-check server *)

Module healthpb.
Inductive ServingStatus := UNKNOWN | SERVING | NOT_SERVING | SERVICE_UNKNOWN.
Record HealthCheckResponse := { Status : ServingStatus }.
(** [Statuses] is a Go map literal with one key; an association list. *)
Record HealthListResponse := { Statuses : list (string * HealthCheckResponse) }.
End healthpb.

(** [ShareManagerServer] holds the manager; the pointer [srv] may be nil. *)
Record ShareManagerServer := { manager : server.ShareManager }.
Record ShareManagerHealthCheckServer := { srv : option ShareManagerServer }.

Definition NewShareManagerHealthCheckServer (s : option ShareManagerServer)
  : ShareManagerHealthCheckServer := {| srv := s |}.

Definition Check (s : ShareManagerHealthCheckServer)
  : healthpb.HealthCheckResponse * error :=
  match srv s with
  | Some _ => ({| healthpb.Status := healthpb.SERVING |}, None)
  | None => ({| healthpb.Status := healthpb.NOT_SERVING |},
             Some "share manager gRPC server is not running")
  end.

Definition List (s : ShareManagerHealthCheckServer)
  : healthpb.HealthListResponse * error :=
  ({| healthpb.Statuses := [("grpc", {| healthpb.Status := healthpb.SERVING |})] |},
   None).

(** ** Observing a run *)

Definition result {R} (out : R * server.ShareManager * list Event) : R :=
  fst (fst out).
Definition manager_after {R} (out : R * server.ShareManager * list Event)
  : server.ShareManager := snd (fst out).
Definition events {R} (out : R * server.ShareManager * list Event)
  : list Event := snd out.

(** The status error has the given code. *)
Definition has_code (c : grpccodes.Code) (r : Result) : Prop :=
  exists msg, snd r = grpcstatus.Error c msg.

Definition is_Execute (ev : Event) : bool :=
  match ev with EvExecute _ _ _ _ _ => true | _ => false end.
Definition is_SetShareExported (ev : Event) : bool :=
  match ev with EvSetShareExported _ => true | _ => false end.
Definition is_IsMountPoint (ev : Event) : bool :=
  match ev with EvIsMountPoint _ _ => true | _ => false end.
Definition is_UnmountVolume (ev : Event) : bool :=
  match ev with EvUnmountVolume _ _ => true | _ => false end.
Definition is_resize (ev : Event) : bool :=
  match ev with
  | EvResizeEncryptoDevice _ _ _ _ | EvResizeVolume _ _ _ => true
  | _ => false
  end.
(** A call of the mount or export step of [Mount] that reported an error. *)
Definition mount_export_failed (ev : Event) : bool :=
  match ev with
  | EvIsMountPoint _ (_, Some _) | EvMountVolume _ _ _ (Some _)
  | EvNewExporter _ _ (Some _) | EvCreateExport _ (Some _)
  | EvReloadExport (Some _) => true
  | _ => false
  end.
(** A call of the unexport step of [Unmount] that reported an error. *)
Definition unexport_failed (ev : Event) : bool :=
  match ev with
  | EvNewExporter _ _ (Some _) | EvDeleteExport _ (Some _)
  | EvReloadExport (Some _) => true
  | _ => false
  end.

(** The calls of a [Mount] run in which the mount-point query, the mount
    (made when the path is not yet a mount point) and the export all
    succeed, up to the point where the flag is written. *)
Definition successful_mount_export (P : Platform) (v : volume.Volume)
    (alreadyMounted : bool) : list Event :=
  let devicePath :=
    GetVolumeDevicePath P (volume.Name v) (volume.DataEngine v) false in
  let mountPath := GetMountPath P (volume.Name v) in
  [EvFindProcessByName "ganesha.nfsd" None;
   EvIsMountPoint mountPath (alreadyMounted, None)]
  ++ (if alreadyMounted then [] else [EvMountVolume v devicePath mountPath None])
  ++ [EvNewExporter configPath (ExportPath P) None;
      EvCreateExport (volume.Name v) None;
      EvReloadExport None].

(** Every collaborator [Mount] may call answers without error. *)
Definition mount_adapters_succeed (A : Adapters) : Prop :=
  (forall h n, FindProcessByName A h n = None) /\
  (forall h p, snd (IsMountPoint A h p) = None) /\
  (forall h v d p, MountVolume A h v d p = None) /\
  (forall h c e, NewExporter A h c e = None) /\
  (forall h n, CreateExport A h n = None) /\
  (forall h, ReloadExport A h = None).

(** The error each attempt [s.unmount(vol)] returned, read off the calls it
    made: a failed mount-point query gives the wrapped error, a path that is
    not a mount point gives nil, and otherwise the attempt returns what the
    OS unmount that follows the query returned. *)
Fixpoint attempt_errors (evs : list Event) : list error :=
  match evs with
  | [] => []
  | EvIsMountPoint mountPath (_, Some e) :: rest =>
      Some (Wrap e ("failed to check mount point " ++ mountPath)%string)
        :: attempt_errors rest
  | EvIsMountPoint _ (false, None) :: rest => None :: attempt_errors rest
  | EvUnmountVolume _ err :: rest => err :: attempt_errors rest
  | _ :: rest => attempt_errors rest
  end.

(** What a run of the retry loop with [n] iterations allowed may look like:
    attempts whose error was busy, then a last attempt whose error [err] is
    the loop's result; if that one is busy too, all [n] were used. *)
Definition loop_outcome (n : nat) (err : error) (errs : list error) : Prop :=
  exists pre,
    errs = pre ++ [err] /\
    Forall (fun e => is_busy e = true) pre /\
    length errs <= n /\
    (is_busy err = true -> length errs = n).

(** ** Example collaborators, used to instantiate the theorems *)

Definition example_platform : Platform := {|
  GetVolumeDevicePath := fun name _ encrypted =>
    (if encrypted then "/dev/mapper/" ++ name else "/dev/longhorn/" ++ name)%string;
  GetMountPath := fun name => ("/export/" ++ name)%string;
  GetRawVolumeDevicePath := fun name => ("/dev/longhorn/" ++ name)%string;
  ExportPath := "/export";
  BinaryFstrim := "fstrim";
  ExecuteDefaultTimeout := 60
|}.

Definition example_volume (name : string) (encrypted : bool) : volume.Volume := {|
  volume.Name := name;
  volume.DataEngine := "v1";
  volume.Passphrase := if encrypted then "secret" else "";
  volume.Encrypted := encrypted
|}.

Definition example_manager (name : string) (encrypted exported : bool)
  : server.ShareManager :=
  {| server.vol := example_volume name encrypted;
     server.shareExported := exported |}.

(** Collaborators following a script: the mount-point query answers
    [isMP], the device path resolves to [devnum] while the mount record
    holds 2049, the raw device has format [fmt], deleting and creating an
    export return [del] and [create], and the OS unmount returns what
    [umount] says of the calls made so far; everything else succeeds. *)
Definition scripted (isMP : bool * error) (devnum : Z) (fmt : string)
    (del : error) (umount : History -> error) (create : error) : Adapters := {|
  FindProcessByName := fun _ _ => None;
  CheckDeviceValid := fun _ _ => true;
  GetMount := fun _ _ => inl {| filesystem.DeviceNumber := 2049 |};
  GetDeviceNumber := fun _ _ => inl devnum;
  IsMountPoint := fun _ _ => isMP;
  ReadDir := fun _ _ => None;
  Execute := fun _ _ _ _ _ => None;
  GetDiskFormat := fun _ _ => inl fmt;
  ResizeEncryptoDevice := fun _ _ _ _ => None;
  ResizeVolume := fun _ _ _ => (true, None);
  NewExporter := fun _ _ _ => None;
  DeleteExport := fun _ _ => del;
  CreateExport := fun _ _ => create;
  ReloadExport := fun _ => None;
  UnmountVolume := fun h _ => umount h;
  MountVolume := fun _ _ _ _ => None
|}.

Definition never_busy : History -> error := fun _ => None.

Definition always_busy : History -> error :=
  fun _ => Some "umount: /export/vol1: target is busy.".

(** Busy as long as fewer than [k] OS unmounts have been tried. *)
Definition busy_times (k : nat) : History -> error :=
  fun h =>
    if Nat.ltb (length (filter is_UnmountVolume h)) k
    then Some "umount: /export/vol1: target is busy."
    else None.

Definition healthy : Adapters :=
  scripted (true, None) 2049 "crypto_LUKS" None never_busy None.

Definition is_Sleep (ev : Event) : bool :=
  match ev with EvSleep _ => true | _ => false end.

(** ** The constructor and the health stream *)

Definition NewShareManagerServer (m : server.ShareManager) : ShareManagerServer :=
  {| manager := m |}.

(** What [Watch] does with the stream: a send with its answer, a sleep. *)
Inductive WatchEvent :=
| WSend (resp : healthpb.HealthCheckResponse) (err : error)
| WSleep (d : Z).

(** [time.Second], in nanoseconds. *)
Definition Second : Z := 1000000000.

(** One pass through the body of the [for] loop of [Watch]: the status is
    chosen by [s.srv != nil], the error of [ws.Send] is only logged, then
    the handler sleeps one second.  [send] is the stream, an oracle over
    what happened on it so far. *)
Definition Watch_body (send : list WatchEvent -> healthpb.HealthCheckResponse -> error)
    (s : ShareManagerHealthCheckServer) (h : list WatchEvent) : list WatchEvent :=
  let resp :=
    match srv s with
    | Some _ => {| healthpb.Status := healthpb.SERVING |}
    | None => {| healthpb.Status := healthpb.NOT_SERVING |}
    end in
  [WSend resp (send h resp); WSleep Second].

(** The loop of [Watch] has no exit.  [Watch_prefix send s n h] is what its
    first [n] passes do on a stream with past [h]. *)
Fixpoint Watch_prefix (send : list WatchEvent -> healthpb.HealthCheckResponse -> error)
    (s : ShareManagerHealthCheckServer) (n : nat) (h : list WatchEvent)
  : list WatchEvent :=
  match n with
  | O => []
  | S k =>
      let e := Watch_body send s h in
      e ++ Watch_prefix send s k (h ++ e)
  end.


(** ** Kinds of calls *)

(** Calls that set a share up, and calls that tear one down. *)
Definition is_setup (ev : Event) : bool :=
  match ev with
  | EvMountVolume _ _ _ _ | EvCreateExport _ _ | EvSetShareExported true => true
  | _ => false
  end.
Definition is_teardown (ev : Event) : bool :=
  match ev with
  | EvUnmountVolume _ _ | EvDeleteExport _ _ | EvSetShareExported false
  | EvSleep _ => true
  | _ => false
  end.
Definition is_MountVolume (ev : Event) : bool :=
  match ev with EvMountVolume _ _ _ _ => true | _ => false end.
Definition is_encryption_call (ev : Event) : bool :=
  match ev with
  | EvGetDiskFormat _ _ | EvResizeEncryptoDevice _ _ _ _ => true
  | _ => false
  end.
Definition is_ResizeVolume (ev : Event) : bool :=
  match ev with EvResizeVolume _ _ _ => true | _ => false end.
(** Calls to the process table, the exporter and the mounter (the
    mount-point query, the mount and the unmount), writes of the flag and
    sleeps: every call [Mount] and [Unmount] can make. *)
Definition is_share_call (ev : Event) : bool :=
  match ev with
  | EvFindProcessByName _ _ | EvSetShareExported _ | EvNewExporter _ _ _
  | EvDeleteExport _ _ | EvCreateExport _ _ | EvReloadExport _
  | EvIsMountPoint _ _ | EvUnmountVolume _ _ | EvMountVolume _ _ _ _
  | EvSleep _ => true
  | _ => false
  end.

(** The status codes a handler may answer with. *)
Definition code_of (r : Result) : option grpccodes.Code :=
  match snd r with
  | Some st => Some (grpcstatus.code st)
  | None => None
  end.


(** A mount-point query that fails with a text that mentions the busy
    condition itself. *)
Definition query_always_busy (A : Adapters) : Prop :=
  forall h p, exists b e,
    IsMountPoint A h p = (b, Some e) /\ Contains e "target is busy" = true.

(** [a] with the process lookup answering [find] and the validity check
    answering [valid]. *)
Definition with_process_and_device (find : error) (valid : bool) (a : Adapters)
  : Adapters := {|
  FindProcessByName := fun _ _ => find;
  CheckDeviceValid := fun _ _ => valid;
  GetMount := GetMount a;
  GetDeviceNumber := GetDeviceNumber a;
  IsMountPoint := IsMountPoint a;
  ReadDir := ReadDir a;
  Execute := Execute a;
  GetDiskFormat := GetDiskFormat a;
  ResizeEncryptoDevice := ResizeEncryptoDevice a;
  ResizeVolume := ResizeVolume a;
  NewExporter := NewExporter a;
  DeleteExport := DeleteExport a;
  CreateExport := CreateExport a;
  ReloadExport := ReloadExport a;
  UnmountVolume := UnmountVolume a;
  MountVolume := MountVolume a
|}.

(** A stream on which every second send fails. *)
Definition flaky_stream : list WatchEvent -> healthpb.HealthCheckResponse -> error :=
  fun h _ =>
    if Nat.even (Nat.div2 (length h)) then None else Some "transport is closing".

(** ** Proof automation *)

Ltac unfold_run :=
  unfold result, manager_after, events, has_code, grpcstatus.Error;
  unfold bind, ret, call, GetVolume, ShareIsExported, SetShareExported,
    Sleep, success; simpl; rewrite ?app_nil_r.

(** The term whose value decides a test: the argument of [negb], [is_nil]. *)
Ltac decider x :=
  lazymatch x with
  | negb ?y => decider y
  | is_nil ?y => decider y
  | snd ?y => decider y
  | _ => x
  end.

(** Split on the answer of the next oracle the run depends on. *)
Ltac split_oracle :=
  match goal with
  | |- context [match ?x with _ => _ end] =>
      lazymatch x with
      | context [match _ with _ => _ end] => fail
      | _ => let y := decider x in destruct y eqn:?
      end
  | H : context [match ?x with _ => _ end] |- _ =>
      lazymatch x with
      | context [match _ with _ => _ end] => fail
      | _ => let y := decider x in destruct y eqn:?
      end
  end; simpl in *.

Ltac clear_in :=
  repeat match goal with
  | H : False |- _ => destruct H
  | H : _ \/ _ |- _ => destruct H
  | H : In _ _ |- _ => simpl in H
  | H : @eq Event _ _ |- _ => first [discriminate H | injection H as ?; subst]
  | H : (_, _) = (_, _) |- _ => injection H as ?; subst
  end.

Lemma to_uint64_id (x : Z) : (0 <= x < 2 ^ 64)%Z -> to_uint64 x = x.
Proof. intros H. unfold to_uint64. apply Z.mod_small. exact H. Qed.

(** ** Empty volume name *)

(** C5: with an empty volume name, Mount, Unmount, FilesystemResize and
    FilesystemTrim return success, call no collaborator and leave the share
    manager, hence [shareExported], as it was. *)
Theorem empty_name_noop (P : Platform) (A : Adapters) (m : server.ShareManager)
    (h : History) (enc : bool) :
  volume.Name (server.vol m) = "" ->
  Mount P A m h = (success, m, []) /\
  Unmount P A m h = (success, m, []) /\
  FilesystemResize P A m h = (success, m, []) /\
  FilesystemTrim P A enc m h = (success, m, []).
Proof.
  intros Hname.
  unfold Mount, Unmount, FilesystemResize, FilesystemTrim, bind, GetVolume, ret.
  rewrite Hname. simpl. repeat split.
Qed.

(** ** FilesystemTrim *)

(** C10: FilesystemTrim neither reads nor writes [shareExported]: whatever
    the outcome, the share manager after the run is the one before it, no
    write of the flag is made, and a run from a manager that differs only
    in the flag gives the same result and makes the same calls. *)
Theorem FilesystemTrim_frame (P : Platform) (A : Adapters) (enc : bool)
    (m : server.ShareManager) (h : History) :
  manager_after (FilesystemTrim P A enc m h) = m /\
  existsb is_SetShareExported (events (FilesystemTrim P A enc m h)) = false /\
  forall b : bool,
    let m' := {| server.vol := server.vol m; server.shareExported := b |} in
    result (FilesystemTrim P A enc m' h) = result (FilesystemTrim P A enc m h) /\
    events (FilesystemTrim P A enc m' h) = events (FilesystemTrim P A enc m h) /\
    manager_after (FilesystemTrim P A enc m' h) = m'.
Proof.
  unfold FilesystemTrim. unfold_run.
  repeat split_oracle; repeat split; intros; reflexivity.
Qed.

(** C9: when the mount-point query of FilesystemTrim reports [false]
    together with an error, the handler answers invalid-argument, "is not a
    mount point", and not an internal error carrying the query's failure:
    the test on the flag comes before the test on the error. *)
Theorem FilesystemTrim_mount_point_test_first (P : Platform) (A : Adapters)
    (enc : bool) (m : server.ShareManager) (h : History) (p e : string) :
  In (EvIsMountPoint p (false, Some e)) (events (FilesystemTrim P A enc m h)) ->
  result (FilesystemTrim P A enc m h) =
    (Some emptypb.mkEmpty,
     grpcstatus.Error grpccodes.InvalidArgument
       (GetMountPath P (volume.Name (server.vol m)) ++ " is not a mount point")%string)
  /\ p = GetMountPath P (volume.Name (server.vol m))
  /\ existsb is_Execute (events (FilesystemTrim P A enc m h)) = false.
Proof.
  unfold FilesystemTrim. unfold_run.
  repeat split_oracle; intros Hin; clear_in; simpl in *; try discriminate;
    repeat split; reflexivity.
Qed.

(** C6: with a non-empty name and a device the validity check accepts,
    when the mount record the OS holds for the mount path and the device
    number resolved for the requested device path differ, as the 64-bit
    unsigned values the handler compares (for numbers in the range of
    uint64 these are the numbers themselves, [to_uint64_id]),
    FilesystemTrim answers invalid-argument; it has made the validity
    check and the two lookups and nothing else, so the trim utility is
    not run. *)
Theorem FilesystemTrim_device_mismatch (P : Platform) (A : Adapters)
    (enc : bool) (m : server.ShareManager) (h : History)
    (mnt : filesystem.Mount) (d : Z) :
  let v := server.vol m in
  let dp := GetVolumeDevicePath P (volume.Name v) (volume.DataEngine v) enc in
  let mp := GetMountPath P (volume.Name v) in
  volume.Name v <> "" ->
  CheckDeviceValid A h dp = true ->
  GetMount A (h ++ [EvCheckDeviceValid dp true]) mp = inl mnt ->
  GetDeviceNumber A (h ++ [EvCheckDeviceValid dp true; EvGetMount mp (inl mnt)]) dp
    = inl d ->
  to_uint64 (filesystem.DeviceNumber mnt) <> to_uint64 d ->
  result (FilesystemTrim P A enc m h) =
    (Some emptypb.mkEmpty,
     grpcstatus.Error grpccodes.InvalidArgument
       ("the device of mount point " ++ mp ++ " is not expected")%string)
  /\ existsb is_Execute (events (FilesystemTrim P A enc m h)) = false
  /\ events (FilesystemTrim P A enc m h) =
       [EvCheckDeviceValid dp true; EvGetMount mp (inl mnt);
        EvGetDeviceNumber dp (inl d)].
Proof.
  intros v dp mp Hname Hvalid Hmount Hdev Hneq. subst v dp mp.
  apply String.eqb_neq in Hname. apply Z.eqb_neq in Hneq.
  unfold FilesystemTrim. unfold_run.
  rewrite Hname. simpl. rewrite ?app_nil_r. rewrite Hvalid. simpl.
  rewrite Hmount. simpl. rewrite <- ?app_assoc. simpl.
  rewrite Hdev. simpl. rewrite Hneq. simpl. repeat split.
Qed.

(** ** FilesystemResize *)

(** C7: on an encrypted volume with a non-empty name, a device the
    validity check accepts and a mount record the OS resolves, when the
    format detected on the raw device is not crypto_LUKS, FilesystemResize
    answers invalid-argument; it has made the validity check, the mount
    lookup and the detection on the raw device and nothing else, so
    neither the encryption resize nor the filesystem resize is called. *)
Theorem FilesystemResize_unexpected_format (P : Platform) (A : Adapters)
    (m : server.ShareManager) (h : History)
    (mnt : filesystem.Mount) (fmt : string) :
  let v := server.vol m in
  let dp := GetVolumeDevicePath P (volume.Name v) (volume.DataEngine v) true in
  let mp := GetMountPath P (volume.Name v) in
  let rp := GetRawVolumeDevicePath P (volume.Name v) in
  volume.Name v <> "" ->
  volume.IsEncrypted v = true ->
  CheckDeviceValid A h dp = true ->
  GetMount A (h ++ [EvCheckDeviceValid dp true]) mp = inl mnt ->
  GetDiskFormat A (h ++ [EvCheckDeviceValid dp true; EvGetMount mp (inl mnt)]) rp
    = inl fmt ->
  fmt <> "crypto_LUKS" ->
  result (FilesystemResize P A m h) =
    (Some emptypb.mkEmpty,
     grpcstatus.Error grpccodes.InvalidArgument
       ("unsupported disk encryption format " ++ fmt)%string)
  /\ existsb is_resize (events (FilesystemResize P A m h)) = false
  /\ manager_after (FilesystemResize P A m h) = m
  /\ events (FilesystemResize P A m h) =
       [EvCheckDeviceValid dp true; EvGetMount mp (inl mnt);
        EvGetDiskFormat rp (inl fmt)].
Proof.
  intros v dp mp rp Hname Henc Hvalid Hmount Hfmt Hneq. subst v dp mp rp.
  apply String.eqb_neq in Hname. apply String.eqb_neq in Hneq.
  unfold FilesystemResize. unfold_run.
  rewrite Hname. simpl. rewrite ?app_nil_r. rewrite Henc.
  rewrite Hvalid. simpl. rewrite Hmount. simpl.
  rewrite <- ?app_assoc. simpl. rewrite Hfmt. simpl. rewrite Hneq. simpl.
  repeat split.
Qed.

(** ** Mount *)

Lemma Mount_fast_path (P : Platform) (A : Adapters) (m : server.ShareManager)
    (h : History) :
  volume.Name (server.vol m) <> "" ->
  FindProcessByName A h "ganesha.nfsd" = None ->
  server.shareExported m = true ->
  Mount P A m h = (success, m, [EvFindProcessByName "ganesha.nfsd" None]).
Proof.
  intros Hname Hrun Hexp. apply String.eqb_neq in Hname.
  unfold Mount, nfsServerIsRunning. unfold_run.
  rewrite Hname. simpl. rewrite Hrun. simpl. rewrite Hexp. reflexivity.
Qed.

Lemma Mount_no_error_exported (P : Platform) (A : Adapters)
    (m : server.ShareManager) (h : History) :
  volume.Name (server.vol m) <> "" ->
  FindProcessByName A h "ganesha.nfsd" = None ->
  snd (result (Mount P A m h)) = None ->
  server.shareExported (manager_after (Mount P A m h)) = true /\
  server.vol (manager_after (Mount P A m h)) = server.vol m /\
  fst (result (Mount P A m h)) = Some emptypb.mkEmpty.
Proof.
  intros Hname Hrun. apply String.eqb_neq in Hname. revert Hrun.
  unfold Mount, nfsServerIsRunning, mount, export. unfold_run.
  rewrite Hname. simpl. intros Hrun. rewrite Hrun. simpl.
  repeat split_oracle; intros; try discriminate; auto.
Qed.

(** C1: in every run of Mount, if a call of the mount or export step
    (mount-point query, mount, exporter creation, export creation, export
    reload) fails, Mount returns an internal error, the flag was false and
    is left so, and no write of the flag is made; the write
    [shareExported = true] occurs only as the last action of a run whose
    mount-point query, mount (when needed) and export all succeeded, and
    the flag is true afterwards only if it was true before or was so
    written. *)
Theorem Mount_sets_flag_only_after_success (P : Platform) (A : Adapters)
    (m : server.ShareManager) (h : History) :
  (existsb mount_export_failed (events (Mount P A m h)) = true ->
     has_code grpccodes.Internal (result (Mount P A m h)) /\
     server.shareExported m = false /\
     manager_after (Mount P A m h) = m /\
     existsb is_SetShareExported (events (Mount P A m h)) = false) /\
  (In (EvSetShareExported true) (events (Mount P A m h)) ->
     result (Mount P A m h) = success /\
     exists alreadyMounted,
       events (Mount P A m h) =
         successful_mount_export P (server.vol m) alreadyMounted
           ++ [EvSetShareExported true]) /\
  (server.shareExported (manager_after (Mount P A m h)) = true ->
     server.shareExported m = true \/
     In (EvSetShareExported true) (events (Mount P A m h))).
Proof.
  unfold Mount, nfsServerIsRunning, mount, export, successful_mount_export.
  unfold_run.
  repeat split_oracle; (split; [| split]); intros H; clear_in;
    simpl in *; try congruence;
    try (repeat split; eauto; congruence);
    try (split; [reflexivity |]; first [exists true; reflexivity | exists false; reflexivity]);
    try (right; simpl; tauto).
Qed.

(** C2: with a non-empty name and the export server running, a Mount that
    finds [shareExported] true returns success at once, having only looked
    for the export server (no mount-point query, no mount, no export call),
    and leaves the manager as it was; hence when a first Mount has returned
    without error, the flag is true and a second Mount in a row succeeds
    with no further mount or export call and the flag still true. *)
Theorem Mount_idempotent (P : Platform) (A : Adapters) (m : server.ShareManager)
    (h : History) :
  volume.Name (server.vol m) <> "" ->
  FindProcessByName A h "ganesha.nfsd" = None ->
  (server.shareExported m = true ->
     Mount P A m h = (success, m, [EvFindProcessByName "ganesha.nfsd" None])) /\
  (snd (result (Mount P A m h)) = None ->
   FindProcessByName A (h ++ events (Mount P A m h)) "ganesha.nfsd" = None ->
     result (Mount P A m h) = success /\
     server.shareExported (manager_after (Mount P A m h)) = true /\
     Mount P A (manager_after (Mount P A m h)) (h ++ events (Mount P A m h)) =
       (success, manager_after (Mount P A m h),
        [EvFindProcessByName "ganesha.nfsd" None])).
Proof.
  intros Hname Hrun. split.
  - intros Hexp. apply Mount_fast_path; assumption.
  - intros Hok Hrun2.
    destruct (Mount_no_error_exported P A m h Hname Hrun Hok) as (Hexp & Hvol & Hresp).
    split; [| split].
    + unfold result in *. destruct (fst (fst (Mount P A m h))) as [r e].
      simpl in *. subst. reflexivity.
    + exact Hexp.
    + apply Mount_fast_path; [rewrite Hvol; exact Hname | exact Hrun2 | exact Hexp].
Qed.

Lemma Mount_healthy_no_error (P : Platform) (A : Adapters)
    (m : server.ShareManager) (h : History) :
  mount_adapters_succeed A ->
  snd (result (Mount P A m h)) = None.
Proof.
  intros (HF & HI & HM & HN & HC & HR).
  unfold Mount, nfsServerIsRunning, mount, export. unfold_run.
  repeat split_oracle; try reflexivity; exfalso;
    repeat match goal with
    | H : IsMountPoint A ?h ?p = (_, Some _) |- _ =>
        let X := fresh in pose proof (HI h p) as X; rewrite H in X; discriminate X
    | H : _ = Some _ |- _ =>
        first [rewrite HF in H | rewrite HM in H | rewrite HN in H
              | rewrite HC in H | rewrite HR in H]; discriminate H
    end.
Qed.

(** Two Mount calls in a row against collaborators that do not fail. *)
Corollary Mount_twice_healthy (P : Platform) (A : Adapters)
    (m : server.ShareManager) (h : History) :
  mount_adapters_succeed A ->
  volume.Name (server.vol m) <> "" ->
  result (Mount P A m h) = success /\
  server.shareExported (manager_after (Mount P A m h)) = true /\
  Mount P A (manager_after (Mount P A m h)) (h ++ events (Mount P A m h)) =
    (success, manager_after (Mount P A m h),
     [EvFindProcessByName "ganesha.nfsd" None]).
Proof.
  intros HA Hname.
  pose proof (Mount_healthy_no_error P A m h HA) as Hok.
  destruct HA as (HF & _).
  destruct (Mount_no_error_exported P A m h Hname (HF _ _) Hok) as (Hexp & Hvol & Hresp).
  split; [| split].
  - unfold result in *. destruct (fst (fst (Mount P A m h))) as [r e].
    simpl in *. subst. reflexivity.
  - exact Hexp.
  - apply Mount_fast_path; [rewrite Hvol; exact Hname | apply HF | exact Hexp].
Qed.

(** ** Unmount *)

Section UnmountLoop.

Variable P : Platform.
Variable A : Adapters.
Variable v : volume.Volume.

Lemma unmount_loop_S (k : nat) (err : error) :
  unmount_loop P A v (S k) err =
  (err' <- unmount P A v ;;
   if is_busy err' then Sleep unmountRetryInterval ;;; unmount_loop P A v k err'
   else ret err').
Proof. reflexivity. Qed.

(** One attempt: it leaves the manager alone, makes one mount-point query,
    and its error is the one [attempt_errors] reads off its calls. *)
Lemma unmount_attempt (m : server.ShareManager) (h : History) :
  manager_after (unmount P A v m h) = m /\
  existsb is_SetShareExported (events (unmount P A v m h)) = false /\
  existsb unexport_failed (events (unmount P A v m h)) = false /\
  (forall rest,
     attempt_errors (events (unmount P A v m h) ++ rest) =
       result (unmount P A v m h) :: attempt_errors rest) /\
  (forall rest,
     length (filter is_IsMountPoint (events (unmount P A v m h) ++ rest)) =
       S (length (filter is_IsMountPoint rest))).
Proof.
  unfold unmount. unfold_run.
  repeat split_oracle; repeat split; intros; reflexivity.
Qed.

Lemma unmount_loop_spec (n : nat) :
  forall (err0 : error) (m : server.ShareManager) (h : History),
    manager_after (unmount_loop P A v n err0 m h) = m /\
    existsb is_SetShareExported (events (unmount_loop P A v n err0 m h)) = false /\
    existsb unexport_failed (events (unmount_loop P A v n err0 m h)) = false /\
    length (filter is_IsMountPoint (events (unmount_loop P A v n err0 m h))) =
      length (attempt_errors (events (unmount_loop P A v n err0 m h))) /\
    (n = 0 -> result (unmount_loop P A v n err0 m h) = err0 /\
              events (unmount_loop P A v n err0 m h) = []) /\
    (0 < n -> loop_outcome n (result (unmount_loop P A v n err0 m h))
                (attempt_errors (events (unmount_loop P A v n err0 m h)))).
Proof.
  induction n as [| k IH]; intros err0 m h.
  - simpl. repeat split; intros; try reflexivity. lia.
  - rewrite unmount_loop_S. unfold bind.
    pose proof (unmount_attempt m h) as (Hm & Hset & Hunx & Herrs & Hcnt).
    destruct (unmount P A v m h) as [[e m1] ev1].
    unfold result, manager_after, events in *. simpl in Hm, Hset, Hunx, Herrs, Hcnt.
    subst m1. destruct (is_busy e) eqn:Hbusy.
    + unfold bind, Sleep. simpl.
      match goal with
      | |- context [unmount_loop P A v k e ?m' ?h'] =>
          specialize (IH e m' h');
          destruct (unmount_loop P A v k e m' h') as [[e2 m2] ev2]
      end.
      simpl in *. destruct IH as (IHm & IHset & IHunx & IHcnt & IH0 & IHpos).
      rewrite !existsb_app, Hset, Hunx, Herrs, Hcnt. simpl.
      repeat split; auto; try discriminate.
      intros _. destruct k as [| k'].
      * destruct (IH0 eq_refl) as (-> & ->). simpl.
        exists []. simpl. repeat split; auto.
      * destruct IHpos as (pre & Hpre & Hall & Hlen & Hfull); [lia |].
        exists (e :: pre). rewrite Hpre. simpl. repeat split.
        -- constructor; assumption.
        -- rewrite <- Hpre. lia.
        -- intros Hb. rewrite <- Hpre. rewrite (Hfull Hb). reflexivity.
    + unfold ret. simpl. rewrite !existsb_app, Hset, Hunx, Herrs, Hcnt. simpl.
      repeat split; auto; try discriminate.
      intros _. exists []. simpl. repeat split; auto; try lia.
      intros Hb. congruence.
Qed.

End UnmountLoop.

Arguments unmount_loop : simpl never.

(** C3: with a non-empty name and the export server running, Unmount writes
    [shareExported = false] right after finding the export server, before
    any call of the unexport or unmount step, and writes the flag no more:
    it is false afterwards whatever happens; and when a call of the
    unexport step fails (exporter creation, export deletion, export reload)
    Unmount returns an internal error, with a nil response, having made no
    mount-point query and no OS unmount. *)
Theorem Unmount_clears_flag_first (P : Platform) (A : Adapters)
    (m : server.ShareManager) (h : History) :
  volume.Name (server.vol m) <> "" ->
  FindProcessByName A h "ganesha.nfsd" = None ->
  server.shareExported (manager_after (Unmount P A m h)) = false /\
  (exists rest,
     events (Unmount P A m h) =
       EvFindProcessByName "ganesha.nfsd" None :: EvSetShareExported false :: rest /\
     existsb is_SetShareExported rest = false) /\
  (existsb unexport_failed (events (Unmount P A m h)) = true ->
     fst (result (Unmount P A m h)) = None /\
     has_code grpccodes.Internal (result (Unmount P A m h)) /\
     existsb is_IsMountPoint (events (Unmount P A m h)) = false /\
     existsb is_UnmountVolume (events (Unmount P A m h)) = false).
Proof.
  intros Hname Hrun. apply String.eqb_neq in Hname. revert Hrun.
  unfold Unmount, nfsServerIsRunning, unexport. unfold_run.
  rewrite Hname. simpl. intros Hrun. rewrite Hrun. simpl.
  repeat split_oracle;
    try match goal with
    | H : unmount_loop P A ?v ?n ?e ?m' ?h' = _ |- _ =>
        pose proof (unmount_loop_spec P A v n e m' h') as (Lm & Lset & Lunx & _);
        rewrite H in Lm, Lset, Lunx; unfold manager_after, events in Lm, Lset, Lunx;
        simpl in Lm, Lset, Lunx; subst
    end;
    rewrite ?app_nil_r;
    (split; [reflexivity | split; [eexists; split; [reflexivity | simpl; auto] |]]);
    intros Hf; simpl in *; try congruence; repeat split; eauto.
Qed.

(** C4: once the unexport step of Unmount has succeeded, the attempts of
    the unmount step are: some attempts whose error text contains "target
    is busy", each followed by a further attempt, and a last attempt.  There
    are at most [unmountRetryCount] = 30 of them, one mount-point query
    each; an attempt whose error is not busy is the last one; when the last
    attempt is busy as well, all 30 were made.  The error of the last
    attempt is returned as an internal error (success if it is nil). *)
Theorem Unmount_retry_policy (P : Platform) (A : Adapters)
    (m : server.ShareManager) (h : History) :
  In (EvReloadExport None) (events (Unmount P A m h)) ->
  exists (pre : list error) (last : error),
    attempt_errors (events (Unmount P A m h)) = pre ++ [last] /\
    length (filter is_IsMountPoint (events (Unmount P A m h))) =
      length (pre ++ [last]) /\
    Forall (fun e => is_busy e = true) pre /\
    length (pre ++ [last]) <= unmountRetryCount /\
    (is_busy last = true -> length (pre ++ [last]) = unmountRetryCount) /\
    result (Unmount P A m h) =
      match last with
      | Some e => (None, grpcstatus.Error grpccodes.Internal e)
      | None => success
      end.
Proof.
  unfold Unmount, nfsServerIsRunning, unexport. unfold_run.
  repeat split_oracle; intros Hin;
    try (exfalso; clear - Hin; simpl in Hin; intuition discriminate);
    match goal with
    | H : unmount_loop P A ?v ?n ?e ?m' ?h' = _ |- _ =>
        pose proof (unmount_loop_spec P A v n e m' h') as (_ & _ & _ & Lcnt & _ & Lout);
        rewrite H in Lcnt, Lout; unfold result, events in Lcnt, Lout;
        simpl in Lcnt, Lout
    end;
    destruct Lout as (pre & Hpre & Hall & Hlen & Hfull);
    [unfold unmountRetryCount; lia | | unfold unmountRetryCount; lia |];
    rewrite ?app_nil_r; rewrite Lcnt, Hpre;
    eexists pre, _; repeat split; eauto; rewrite <- Hpre; assumption.
Qed.

(** ** Health check *)

Lemma Check_serving (s : ShareManagerServer) :
  fst (Check (NewShareManagerHealthCheckServer (Some s))) =
    {| healthpb.Status := healthpb.SERVING |} /\
  snd (Check (NewShareManagerHealthCheckServer (Some s))) = None.
Proof. split; reflexivity. Qed.

Lemma Check_not_serving :
  fst (Check (NewShareManagerHealthCheckServer None)) =
    {| healthpb.Status := healthpb.NOT_SERVING |} /\
  snd (Check (NewShareManagerHealthCheckServer None)) <> None.
Proof. split; [reflexivity | discriminate]. Qed.

(** C8: with a nil controller reference [Check] answers NOT_SERVING with an
    error, while [List] still answers SERVING for "grpc" with a nil error:
    [List] does not look at the reference at all. *)
Theorem List_ignores_controller_reference :
  (let nilsrv := NewShareManagerHealthCheckServer None in
   Check nilsrv = ({| healthpb.Status := healthpb.NOT_SERVING |},
                   Some "share manager gRPC server is not running")) /\
  List (NewShareManagerHealthCheckServer None) =
    ({| healthpb.Statuses := [("grpc", {| healthpb.Status := healthpb.SERVING |})] |},
     None) /\
  forall s, List s = List (NewShareManagerHealthCheckServer None).
Proof. repeat split. Qed.

(** ** The theorems at concrete collaborators *)

Example Contains_busy :
  Contains "umount: /export/vol1: target is busy." "target is busy" = true /\
  Contains "umount: /export/vol1: not mounted." "target is busy" = false.
Proof. split; reflexivity. Qed.

(** Every attempt busy: 30 mount-point queries, 30 sleeps, and the busy
    error comes back as an internal error, the flag already cleared. *)
Example Unmount_always_busy :
  let out := Unmount example_platform
               (scripted (true, None) 2049 "ext4" None always_busy None)
               (example_manager "vol1" false true) [] in
  length (filter is_IsMountPoint (events out)) = 30 /\
  length (filter is_Sleep (events out)) = 30 /\
  result out = (None, grpcstatus.Error grpccodes.Internal
                        "umount: /export/vol1: target is busy.") /\
  server.shareExported (manager_after out) = false.
Proof. vm_compute. repeat split. Qed.

(** Busy three times, then free: four attempts and success. *)
Example Unmount_busy_three_times :
  let out := Unmount example_platform
               (scripted (true, None) 2049 "ext4" None (busy_times 3) None)
               (example_manager "vol1" false true) [] in
  length (filter is_UnmountVolume (events out)) = 4 /\
  length (filter is_Sleep (events out)) = 3 /\
  result out = success.
Proof. vm_compute. repeat split. Qed.

(** An error that is not busy: one attempt, no sleep, internal error. *)
Example Unmount_other_error :
  let out := Unmount example_platform
               (scripted (true, None) 2049 "ext4" None
                  (fun _ => Some "umount: /export/vol1: not mounted.") None)
               (example_manager "vol1" false true) [] in
  length (filter is_IsMountPoint (events out)) = 1 /\
  length (filter is_Sleep (events out)) = 0 /\
  result out = (None, grpcstatus.Error grpccodes.Internal
                        "umount: /export/vol1: not mounted.").
Proof. vm_compute. repeat split. Qed.

(** A Mount from the unexported state against healthy collaborators. *)
Example Mount_healthy_run :
  Mount example_platform healthy (example_manager "vol1" false false) [] =
  (success, example_manager "vol1" false true,
   successful_mount_export example_platform (example_volume "vol1" false) true
     ++ [EvSetShareExported true]).
Proof. reflexivity. Qed.

Ltac in_list := simpl; repeat (first [left; reflexivity | right]).

Lemma empty_name_noop_witness :
  volume.Name (server.vol (example_manager "" false true)) = "" /\
  Mount example_platform healthy (example_manager "" false true) [] =
    (success, example_manager "" false true, []).
Proof.
  split; [reflexivity |].
  apply (empty_name_noop example_platform healthy
           (example_manager "" false true) [] false).
  reflexivity.
Defined.

Lemma Mount_sets_flag_only_after_success_witness :
  let A := scripted (false, None) 2049 "ext4" None never_busy (Some "no space left") in
  let m := example_manager "vol1" false false in
  existsb mount_export_failed (events (Mount example_platform A m [])) = true /\
  has_code grpccodes.Internal (result (Mount example_platform A m [])) /\
  manager_after (Mount example_platform A m []) = m.
Proof.
  intros A m.
  split; [reflexivity |].
  destruct (Mount_sets_flag_only_after_success example_platform A m [])
    as (Hfail & _).
  destruct (Hfail eq_refl) as (Hcode & _ & Hm & _).
  split; assumption.
Defined.

Lemma Mount_idempotent_witness :
  let m := example_manager "vol1" false false in
  let first := Mount example_platform healthy m [] in
  volume.Name (server.vol m) <> "" /\
  snd (result first) = None /\
  server.shareExported (manager_after first) = true /\
  Mount example_platform healthy (manager_after first) ([] ++ events first) =
    (success, manager_after first, [EvFindProcessByName "ganesha.nfsd" None]).
Proof.
  intros m first.
  assert (Hname : volume.Name (server.vol m) <> "") by discriminate.
  destruct (Mount_idempotent example_platform healthy m [] Hname eq_refl)
    as (_ & Htwice).
  destruct (Htwice eq_refl eq_refl) as (_ & Hexp & Hsecond).
  split; [exact Hname |]. split; [reflexivity |].
  split; [exact Hexp | exact Hsecond].
Defined.

Lemma Unmount_clears_flag_first_witness :
  let A := scripted (true, None) 2049 "ext4" (Some "config is locked") never_busy None in
  let m := example_manager "vol1" false true in
  volume.Name (server.vol m) <> "" /\
  server.shareExported (manager_after (Unmount example_platform A m [])) = false /\
  has_code grpccodes.Internal (result (Unmount example_platform A m [])) /\
  existsb is_IsMountPoint (events (Unmount example_platform A m [])) = false.
Proof.
  intros A m.
  assert (Hname : volume.Name (server.vol m) <> "") by discriminate.
  destruct (Unmount_clears_flag_first example_platform A m [] Hname eq_refl)
    as (Hflag & _ & Hfail).
  destruct (Hfail eq_refl) as (_ & Hcode & Hq & _).
  split; [exact Hname |]. split; [exact Hflag |].
  split; [exact Hcode | exact Hq].
Defined.

Lemma Unmount_retry_policy_witness :
  let A := scripted (true, None) 2049 "ext4" None always_busy None in
  let m := example_manager "vol1" false true in
  In (EvReloadExport None) (events (Unmount example_platform A m [])) /\
  length (filter is_IsMountPoint (events (Unmount example_platform A m []))) <= 30.
Proof.
  intros A m.
  assert (Hin : In (EvReloadExport None) (events (Unmount example_platform A m [])))
    by (vm_compute; repeat (first [left; reflexivity | right])).
  split; [exact Hin |].
  destruct (Unmount_retry_policy example_platform A m [] Hin)
    as (pre & last & _ & Hcnt & _ & Hle & _).
  rewrite Hcnt. exact Hle.
Defined.

Lemma FilesystemTrim_device_mismatch_witness :
  let A := scripted (true, None) 2050 "ext4" None never_busy None in
  let m := example_manager "vol1" false true in
  to_uint64 2049 <> to_uint64 2050 /\
  result (FilesystemTrim example_platform A false m []) =
    (Some emptypb.mkEmpty,
     grpcstatus.Error grpccodes.InvalidArgument
       "the device of mount point /export/vol1 is not expected") /\
  existsb is_Execute (events (FilesystemTrim example_platform A false m [])) = false.
Proof.
  intros A m.
  assert (Hneq : to_uint64 2049 <> to_uint64 2050) by (vm_compute; discriminate).
  split; [exact Hneq |].
  destruct (FilesystemTrim_device_mismatch example_platform A false m []
              {| filesystem.DeviceNumber := 2049 |} 2050) as (Hres & Hno & _).
  - discriminate.
  - reflexivity.
  - reflexivity.
  - reflexivity.
  - exact Hneq.
  - split; [exact Hres | exact Hno].
Defined.

Lemma FilesystemTrim_mount_point_test_first_witness :
  let A := scripted (false, Some "stat /export/vol1: input/output error")
             2049 "ext4" None never_busy None in
  let m := example_manager "vol1" false true in
  result (FilesystemTrim example_platform A false m []) =
    (Some emptypb.mkEmpty,
     grpcstatus.Error grpccodes.InvalidArgument "/export/vol1 is not a mount point").
Proof.
  intros A m.
  apply (FilesystemTrim_mount_point_test_first example_platform A false m []
           "/export/vol1" "stat /export/vol1: input/output error").
  in_list.
Defined.

Lemma FilesystemResize_unexpected_format_witness :
  let A := scripted (true, None) 2049 "ext4" None never_busy None in
  let m := example_manager "vol1" true true in
  result (FilesystemResize example_platform A m []) =
    (Some emptypb.mkEmpty,
     grpcstatus.Error grpccodes.InvalidArgument
       "unsupported disk encryption format ext4") /\
  existsb is_resize (events (FilesystemResize example_platform A m [])) = false.
Proof.
  intros A m.
  destruct (FilesystemResize_unexpected_format example_platform A m []
              {| filesystem.DeviceNumber := 2049 |} "ext4")
    as (Hres & Hno & _).
  - discriminate.
  - reflexivity.
  - reflexivity.
  - reflexivity.
  - reflexivity.
  - discriminate.
  - split; assumption.
Defined.
(** * Further properties of the handlers *)

(** ** Export server not running *)

(** With a non-empty name, when the lookup of the export server process
    fails, Mount and Unmount return success after that lookup alone and
    leave the manager as it was: Unmount does not clear the flag then. *)
Theorem server_not_running_noop (P : Platform) (A : Adapters)
    (m : server.ShareManager) (h : History) (e : string) :
  volume.Name (server.vol m) <> "" ->
  FindProcessByName A h "ganesha.nfsd" = Some e ->
  Mount P A m h = (success, m, [EvFindProcessByName "ganesha.nfsd" (Some e)]) /\
  Unmount P A m h = (success, m, [EvFindProcessByName "ganesha.nfsd" (Some e)]).
Proof.
  intros Hname Hrun. apply String.eqb_neq in Hname.
  unfold Mount, Unmount, nfsServerIsRunning. unfold_run.
  rewrite Hname. simpl. rewrite Hrun. simpl. split; reflexivity.
Qed.

(** ** Shape of the answers *)


(** FilesystemTrim and FilesystemResize always answer with a non-nil
    response, and with no other code than failed-precondition,
    invalid-argument and internal. *)
Theorem Filesystem_handlers_result_shape (P : Platform) (A : Adapters)
    (enc : bool) (m : server.ShareManager) (h : History) :
  (fst (result (FilesystemTrim P A enc m h)) = Some emptypb.mkEmpty /\
   In (code_of (result (FilesystemTrim P A enc m h)))
      [None; Some grpccodes.FailedPrecondition; Some grpccodes.InvalidArgument;
       Some grpccodes.Internal]) /\
  (fst (result (FilesystemResize P A m h)) = Some emptypb.mkEmpty /\
   In (code_of (result (FilesystemResize P A m h)))
      [None; Some grpccodes.FailedPrecondition; Some grpccodes.InvalidArgument;
       Some grpccodes.Internal]).
Proof.
  unfold FilesystemTrim, FilesystemResize, code_of. unfold_run.
  split; repeat split_oracle; (split; [reflexivity | simpl; tauto]).
Qed.

(** ** Mount *)

(** Mount never tears anything down: no OS unmount, no export deletion, no
    write of [false] to the flag and no sleep, in any run; in particular a
    failed export after a successful mount is not rolled back. *)
Theorem Mount_never_tears_down (P : Platform) (A : Adapters)
    (m : server.ShareManager) (h : History) :
  existsb is_teardown (events (Mount P A m h)) = false /\
  forall v dp mp,
    In (EvMountVolume v dp mp None) (events (Mount P A m h)) ->
    existsb mount_export_failed (events (Mount P A m h)) = true ->
    has_code grpccodes.Internal (result (Mount P A m h)) /\
    existsb is_UnmountVolume (events (Mount P A m h)) = false.
Proof.
  unfold Mount, nfsServerIsRunning, mount, export. unfold_run.
  repeat split_oracle; (split; [reflexivity |]); intros v dp mp Hin Hf;
    simpl in *; try discriminate;
    (split; [eexists; reflexivity | reflexivity]).
Qed.

(** Mount calls the mount adapter only after the mount-point query has said
    that the path is not a mount point, at most once, for the manager's
    volume, and with the device path of the unencrypted device, whether the
    volume is encrypted or not; a path that already is a mount point is not
    mounted again. *)
Theorem Mount_mounts_only_when_needed (P : Platform) (A : Adapters)
    (m : server.ShareManager) (h : History) :
  let name := volume.Name (server.vol m) in
  let mountPath := GetMountPath P name in
  (forall v dp mp e,
     In (EvMountVolume v dp mp e) (events (Mount P A m h)) ->
     v = server.vol m /\
     dp = GetVolumeDevicePath P name (volume.DataEngine (server.vol m)) false /\
     mp = mountPath /\
     In (EvIsMountPoint mountPath (false, None)) (events (Mount P A m h))) /\
  (forall p, In (EvIsMountPoint p (true, None)) (events (Mount P A m h)) ->
     existsb is_MountVolume (events (Mount P A m h)) = false) /\
  length (filter is_MountVolume (events (Mount P A m h))) <= 1.
Proof.
  unfold Mount, nfsServerIsRunning, mount, export. unfold_run.
  repeat split_oracle; (split; [| split]);
    try (intros v dp mp e' Hin); try (intros p Hin); clear_in;
    simpl in *; try discriminate; try lia; try reflexivity;
    repeat split; auto.
Qed.

(** ** FilesystemResize and FilesystemTrim *)

(** FilesystemResize neither reads nor writes [shareExported], and makes no
    call to the exporter, the mounter (no mount-point query, mount or
    unmount) or the process table: the manager after the run is the one
    before it, and a run from a manager that differs only in the flag
    gives the same result and the same calls. *)
Theorem FilesystemResize_frame (P : Platform) (A : Adapters)
    (m : server.ShareManager) (h : History) :
  manager_after (FilesystemResize P A m h) = m /\
  existsb is_share_call (events (FilesystemResize P A m h)) = false /\
  forall b : bool,
    let m' := {| server.vol := server.vol m; server.shareExported := b |} in
    result (FilesystemResize P A m' h) = result (FilesystemResize P A m h) /\
    events (FilesystemResize P A m' h) = events (FilesystemResize P A m h).
Proof.
  unfold FilesystemResize. unfold_run.
  repeat split_oracle; repeat split; intros; reflexivity.
Qed.

(** When the device of the volume is not valid, FilesystemTrim and
    FilesystemResize answer failed-precondition, naming the volume, and
    have made no call but the validity check. *)
Theorem invalid_device_failed_precondition (P : Platform) (A : Adapters)
    (enc : bool) (m : server.ShareManager) (h : History) (dp : string) :
  let answer :=
    (Some emptypb.mkEmpty,
     grpcstatus.Error grpccodes.FailedPrecondition
       ("volume " ++ volume.Name (server.vol m) ++ " is not valid")%string) in
  (In (EvCheckDeviceValid dp false) (events (FilesystemTrim P A enc m h)) ->
     result (FilesystemTrim P A enc m h) = answer /\
     events (FilesystemTrim P A enc m h) = [EvCheckDeviceValid dp false]) /\
  (In (EvCheckDeviceValid dp false) (events (FilesystemResize P A m h)) ->
     result (FilesystemResize P A m h) = answer /\
     events (FilesystemResize P A m h) = [EvCheckDeviceValid dp false]).
Proof.
  unfold FilesystemTrim, FilesystemResize. unfold_run.
  split; repeat split_oracle; intros Hin; clear_in; simpl in *;
    try discriminate; split; reflexivity.
Qed.

(** On a volume that is not encrypted FilesystemResize makes no call to the
    format detector or to the encryption resize; and whatever the volume,
    once the filesystem resize is called its error alone decides the
    answer: success when it is nil, whether or not a resize took place,
    and an internal error carrying its text otherwise. *)
Theorem FilesystemResize_outcome (P : Platform) (A : Adapters)
    (m : server.ShareManager) (h : History) :
  (volume.IsEncrypted (server.vol m) = false ->
     existsb is_encryption_call (events (FilesystemResize P A m h)) = false) /\
  (forall dp mp resized,
     In (EvResizeVolume dp mp (resized, None)) (events (FilesystemResize P A m h)) ->
     result (FilesystemResize P A m h) = success) /\
  (forall dp mp resized e,
     In (EvResizeVolume dp mp (resized, Some e)) (events (FilesystemResize P A m h)) ->
     result (FilesystemResize P A m h) =
       (Some emptypb.mkEmpty, grpcstatus.Error grpccodes.Internal e)) /\
  (result (FilesystemResize P A m h) = success ->
     volume.Name (server.vol m) = "" \/
     existsb is_ResizeVolume (events (FilesystemResize P A m h)) = true).
Proof.
  unfold FilesystemResize, volume.IsEncrypted. unfold_run.
  repeat split_oracle;
    (split; [intros Henc
            | split; [intros dp mp resized Hin
                     | split; [intros dp mp resized e' Hin | intros Hs]]]);
    clear_in; simpl in *; try discriminate; try congruence;
    try reflexivity; auto.
  all: left; apply String.eqb_eq; assumption.
Qed.

(** On an encrypted volume the filesystem resize is called only after the
    raw device was found to be crypto_LUKS and the encryption resize,
    called with the volume's name, data engine and passphrase, succeeded;
    when the encryption resize fails the answer is an internal error and
    the filesystem is not resized. *)
Theorem FilesystemResize_encrypted_order (P : Platform) (A : Adapters)
    (m : server.ShareManager) (h : History) :
  volume.IsEncrypted (server.vol m) = true ->
  let v := server.vol m in
  (existsb is_ResizeVolume (events (FilesystemResize P A m h)) = true ->
     In (EvGetDiskFormat (GetRawVolumeDevicePath P (volume.Name v)) (inl "crypto_LUKS"))
        (events (FilesystemResize P A m h)) /\
     In (EvResizeEncryptoDevice (volume.Name v) (volume.DataEngine v)
           (volume.Passphrase v) None)
        (events (FilesystemResize P A m h))) /\
  (forall n d p e,
     In (EvResizeEncryptoDevice n d p (Some e)) (events (FilesystemResize P A m h)) ->
     has_code grpccodes.Internal (result (FilesystemResize P A m h)) /\
     existsb is_ResizeVolume (events (FilesystemResize P A m h)) = false) /\
  (forall rp e,
     In (EvGetDiskFormat rp (inr e)) (events (FilesystemResize P A m h)) ->
     has_code grpccodes.Internal (result (FilesystemResize P A m h)) /\
     existsb is_resize (events (FilesystemResize P A m h)) = false).
Proof.
  unfold FilesystemResize, volume.IsEncrypted. unfold_run.
  repeat split_oracle; intros Henc;
    (split; [intros Hr | split; [intros n d p e' Hin | intros rp e' Hin]]);
    clear_in; simpl in *; try discriminate; try congruence;
    try (split; [eexists; reflexivity | reflexivity]).
  all: match goal with
       | H : (_ =? _)%string = true |- _ => apply String.eqb_eq in H; subst
       end; split; simpl; tauto.
Qed.

(** The trim utility is run only as the last of six calls, after the device
    was found valid, the two device numbers were resolved and agree, the
    path was confirmed to be a mount point and its directory was read; it
    is run on the mount path alone, with the default timeout, and its error
    decides the answer. *)
Theorem FilesystemTrim_runs_trim_last (P : Platform) (A : Adapters)
    (enc : bool) (m : server.ShareManager) (h : History)
    (envs args : list string) (binary : string) (timeout : Z) (e : error) :
  In (EvExecute envs binary args timeout e) (events (FilesystemTrim P A enc m h)) ->
  let v := server.vol m in
  let dp := GetVolumeDevicePath P (volume.Name v) (volume.DataEngine v) enc in
  let mp := GetMountPath P (volume.Name v) in
  (exists mnt d,
     to_uint64 (filesystem.DeviceNumber mnt) = to_uint64 d /\
     events (FilesystemTrim P A enc m h) =
       [EvCheckDeviceValid dp true; EvGetMount mp (inl mnt);
        EvGetDeviceNumber dp (inl d); EvIsMountPoint mp (true, None);
        EvReadDir mp None;
        EvExecute [] (BinaryFstrim P) [mp] (ExecuteDefaultTimeout P) e]) /\
  result (FilesystemTrim P A enc m h) =
    match e with
    | None => success
    | Some text => (Some emptypb.mkEmpty, grpcstatus.Error grpccodes.Internal text)
    end.
Proof.
  unfold FilesystemTrim. unfold_run.
  repeat split_oracle; intros Hin; clear_in; simpl in *; try discriminate;
    (split; [| reflexivity]);
    match goal with
    | H : (_ =? _)%Z = true |- _ => apply Z.eqb_eq in H
    end; do 2 eexists; (split; [eassumption | reflexivity]).
Qed.

(** With a non-empty name FilesystemTrim answers success exactly when the
    trim utility was run and returned no error. *)
Theorem FilesystemTrim_success_iff (P : Platform) (A : Adapters)
    (enc : bool) (m : server.ShareManager) (h : History) :
  volume.Name (server.vol m) <> "" ->
  (result (FilesystemTrim P A enc m h) = success <->
   In (EvExecute [] (BinaryFstrim P) [GetMountPath P (volume.Name (server.vol m))]
         (ExecuteDefaultTimeout P) None)
      (events (FilesystemTrim P A enc m h))).
Proof.
  intros Hname. apply String.eqb_neq in Hname.
  unfold FilesystemTrim. unfold_run. rewrite Hname. simpl.
  repeat split_oracle; split; intros H; clear_in; simpl in *;
    try discriminate; try reflexivity; tauto.
Qed.

(** FilesystemTrim reads the name and the data engine of the volume and
    nothing else: which device is trimmed follows the flag of the request,
    not the encryption flag or the passphrase of the descriptor. *)
Theorem FilesystemTrim_follows_request_flag (P : Platform) (A : Adapters)
    (enc : bool) (m1 m2 : server.ShareManager) (h : History) :
  volume.Name (server.vol m1) = volume.Name (server.vol m2) ->
  volume.DataEngine (server.vol m1) = volume.DataEngine (server.vol m2) ->
  result (FilesystemTrim P A enc m1 h) = result (FilesystemTrim P A enc m2 h) /\
  events (FilesystemTrim P A enc m1 h) = events (FilesystemTrim P A enc m2 h) /\
  forall dp valid,
    In (EvCheckDeviceValid dp valid) (events (FilesystemTrim P A enc m1 h)) ->
    dp = GetVolumeDevicePath P (volume.Name (server.vol m1))
           (volume.DataEngine (server.vol m1)) enc.
Proof.
  intros Hn He. unfold FilesystemTrim. unfold_run. rewrite <- Hn, <- He.
  repeat split_oracle; repeat split; intros; clear_in; simpl in *;
    try discriminate; reflexivity.
Qed.

(** ** Unmount *)

Lemma Forall_existsb_false (f : Event -> bool) (l : list Event) :
  Forall (fun ev => f ev = false) l -> existsb f l = false.
Proof.
  induction 1 as [| ev l Hev _ IH]; simpl; [reflexivity |].
  rewrite Hev, IH. reflexivity.
Qed.

Section UnmountLoopMore.

Variable P : Platform.
Variable A : Adapters.
Variable v : volume.Volume.

(** What holds of every call of an attempt and of the sleep holds of every
    call of the loop. *)
Lemma unmount_loop_Forall (Q : Event -> Prop) :
  (forall m h, Forall Q (events (unmount P A v m h))) ->
  Q (EvSleep unmountRetryInterval) ->
  forall n err0 m h, Forall Q (events (unmount_loop P A v n err0 m h)).
Proof.
  intros Hatt Hsleep. induction n as [| k IH]; intros err0 m h.
  - constructor.
  - rewrite unmount_loop_S. unfold bind.
    specialize (Hatt m h).
    destruct (unmount P A v m h) as [[e m1] ev1].
    unfold events in *. simpl in Hatt.
    destruct (is_busy e).
    + unfold Sleep. simpl.
      match goal with
      | |- context [unmount_loop P A v k e ?m' ?h'] =>
          specialize (IH e m' h');
          destruct (unmount_loop P A v k e m' h') as [[e2 m2] ev2]
      end.
      simpl in *. apply Forall_app. split; [assumption |].
      constructor; assumption.
    + unfold ret. simpl. rewrite app_nil_r. assumption.
Qed.


(** A query that finds the path not to be a mount point ends the loop. *)
Lemma unmount_loop_not_mount_point (n : nat) :
  forall err0 m h p,
    In (EvIsMountPoint p (false, None)) (events (unmount_loop P A v n err0 m h)) ->
    result (unmount_loop P A v n err0 m h) = None /\
    exists before,
      events (unmount_loop P A v n err0 m h) =
        before ++ [EvIsMountPoint p (false, None)].
Proof.
  induction n as [| k IH]; intros err0 m h p.
  - simpl. tauto.
  - rewrite unmount_loop_S. unfold unmount. unfold_run.
    repeat split_oracle;
      try match goal with
      | H : unmount_loop P A v k ?e ?m' ?h' = _ |- _ =>
          specialize (IH e m' h' p); rewrite H in IH;
          unfold result, events in IH; simpl in IH
      end;
      intros Hin; simpl in Hin;
      repeat match goal with
      | H : _ \/ _ |- _ => destruct H
      | H : False |- _ => destruct H
      | H : @eq Event _ _ |- _ => first [discriminate H | injection H as ?; subst]
      end; try discriminate.
    all: try (split; [reflexivity | exists []; reflexivity]).
    all: destruct (IH ltac:(assumption)) as (-> & before & ->);
      (split; [reflexivity |]).
    all: match goal with
         | |- exists b, ?x :: ?tl ++ ?last = _ =>
             exists (x :: tl); reflexivity
         | |- exists b, ?x :: ?y :: ?tl ++ ?last = _ =>
             exists (x :: y :: tl); reflexivity
         | |- exists b, ?x :: ?y :: ?z :: ?tl ++ ?last = _ =>
             exists (x :: y :: z :: tl); reflexivity
         end.
Qed.

End UnmountLoopMore.

Ltac use_loop_spec :=
  match goal with
  | H : unmount_loop ?P ?A ?v ?n ?e ?m' ?h' = _ |- _ =>
      pose proof (unmount_loop_spec P A v n e m' h')
        as (Lm & Lset & Lunx & Lcnt & _ & Lout);
      rewrite H in Lm, Lset, Lunx, Lcnt, Lout;
      unfold result, manager_after, events in Lm, Lset, Lunx, Lcnt, Lout;
      simpl in Lm, Lset, Lunx, Lcnt, Lout;
      specialize (Lout ltac:(unfold unmountRetryCount; lia))
  end.

(** Unmount answers success, or a nil response with an internal error. *)
Theorem Unmount_result_shape (P : Platform) (A : Adapters)
    (m : server.ShareManager) (h : History) :
  result (Unmount P A m h) = success \/
  (fst (result (Unmount P A m h)) = None /\
   has_code grpccodes.Internal (result (Unmount P A m h))).
Proof.
  unfold Unmount, nfsServerIsRunning, unexport. unfold_run.
  repeat split_oracle; try (left; reflexivity);
    right; (split; [reflexivity | eexists; reflexivity]).
Qed.

(** Unmount is idempotent: as soon as the mount-point query says, without
    error, that the path is not a mount point, the unmount step is over
    and Unmount returns success with the flag false. *)
Theorem Unmount_not_mount_point_succeeds (P : Platform) (A : Adapters)
    (m : server.ShareManager) (h : History) (p : string) :
  In (EvIsMountPoint p (false, None)) (events (Unmount P A m h)) ->
  result (Unmount P A m h) = success /\
  server.shareExported (manager_after (Unmount P A m h)) = false /\
  exists before,
    events (Unmount P A m h) = before ++ [EvIsMountPoint p (false, None)].
Proof.
  unfold Unmount, nfsServerIsRunning, unexport. unfold_run.
  repeat split_oracle; intros Hin;
    try (exfalso; clear - Hin; simpl in Hin; intuition discriminate);
    rewrite ?app_nil_r in *;
    match goal with
    | H : unmount_loop P A ?v ?n ?e ?m' ?h' = _ |- _ =>
        pose proof (unmount_loop_not_mount_point P A v n e m' h' p) as Hlast;
        pose proof (unmount_loop_spec P A v n e m' h') as (Lm & _);
        rewrite H in Hlast, Lm; unfold result, manager_after, events in Hlast, Lm;
        simpl in Hlast, Lm; subst
    end;
    assert (Hl : In (EvIsMountPoint p (false, None)) l)
      by (clear - Hin; simpl in Hin; intuition discriminate);
    destruct (Hlast Hl) as (Hres & before & ->); try discriminate.
  split; [reflexivity | split; [reflexivity |]].
  eexists (_ :: _ :: _ :: _ :: _ :: before). reflexivity.
Qed.

(** Unmount never sets anything up: no mount, no export creation and no
    write of [true] to the flag, in any run. *)
Theorem Unmount_never_sets_up (P : Platform) (A : Adapters)
    (m : server.ShareManager) (h : History) :
  existsb is_setup (events (Unmount P A m h)) = false.
Proof.
  assert (Hloop : forall v n e m' h',
            existsb is_setup (events (unmount_loop P A v n e m' h')) = false).
  { intros. apply Forall_existsb_false. apply unmount_loop_Forall.
    - intros m0 h0. unfold unmount. unfold_run.
      repeat split_oracle; repeat constructor.
    - reflexivity. }
  unfold Unmount, nfsServerIsRunning, unexport. unfold_run.
  repeat split_oracle; try reflexivity;
    match goal with
    | H : unmount_loop P A ?v ?n ?e ?m' ?h' = _ |- _ =>
        specialize (Hloop v n e m' h'); rewrite H in Hloop;
        unfold events in Hloop; simpl in Hloop
    end; rewrite ?app_nil_r; assumption.
Qed.

(** Unmount has no fast path on the flag: it does not read it.  From two
    managers that differ only in the flag it gives the same result and
    makes the same calls. *)
Theorem Unmount_ignores_flag (P : Platform) (A : Adapters)
    (m : server.ShareManager) (h : History) (b : bool) :
  let m' := {| server.vol := server.vol m; server.shareExported := b |} in
  result (Unmount P A m' h) = result (Unmount P A m h) /\
  events (Unmount P A m' h) = events (Unmount P A m h).
Proof.
  unfold Unmount, nfsServerIsRunning, unexport. unfold_run.
  repeat split_oracle; split; reflexivity.
Qed.


(** ** Unmount followed by Mount *)

Lemma Unmount_flag_false (P : Platform) (A : Adapters)
    (m : server.ShareManager) (h : History) :
  volume.Name (server.vol m) <> "" ->
  FindProcessByName A h "ganesha.nfsd" = None ->
  manager_after (Unmount P A m h) =
    {| server.vol := server.vol m; server.shareExported := false |}.
Proof.
  intros Hname Hrun. apply String.eqb_neq in Hname. revert Hrun.
  unfold Unmount, nfsServerIsRunning, unexport. unfold_run.
  rewrite Hname. simpl. intros Hrun. rewrite Hrun. simpl.
  repeat split_oracle; try reflexivity;
    match goal with
    | H : unmount_loop P A ?v ?n ?e ?m' ?h' = _ |- _ =>
        pose proof (unmount_loop_spec P A v n e m' h') as (Lm & _);
        rewrite H in Lm; unfold manager_after in Lm; simpl in Lm; subst
    end; reflexivity.
Qed.

Lemma Mount_slow_path (P : Platform) (A : Adapters)
    (m : server.ShareManager) (h : History) :
  volume.Name (server.vol m) <> "" ->
  FindProcessByName A h "ganesha.nfsd" = None ->
  server.shareExported m = false ->
  existsb is_IsMountPoint (events (Mount P A m h)) = true /\
  (snd (result (Mount P A m h)) = None ->
     In (EvCreateExport (volume.Name (server.vol m)) None) (events (Mount P A m h)) /\
     In (EvReloadExport None) (events (Mount P A m h))).
Proof.
  intros Hname Hrun Hexp. apply String.eqb_neq in Hname. revert Hrun.
  unfold Mount, nfsServerIsRunning, mount, export. unfold_run.
  rewrite Hname. simpl. intros Hrun. rewrite Hrun. simpl. rewrite Hexp.
  repeat split_oracle; (split; [reflexivity |]); intros Hok;
    try discriminate; split; simpl; tauto.
Qed.

(** After an Unmount that found the export server running, whatever its
    outcome, a Mount that finds the server running does not take the fast
    path: it queries the mount point again, and if it returns without
    error it has created and reloaded the export and the flag is true. *)
Theorem Unmount_then_Mount (P : Platform) (A : Adapters)
    (m : server.ShareManager) (h : History) :
  volume.Name (server.vol m) <> "" ->
  FindProcessByName A h "ganesha.nfsd" = None ->
  FindProcessByName A (h ++ events (Unmount P A m h)) "ganesha.nfsd" = None ->
  let m1 := manager_after (Unmount P A m h) in
  let h1 := h ++ events (Unmount P A m h) in
  existsb is_IsMountPoint (events (Mount P A m1 h1)) = true /\
  (snd (result (Mount P A m1 h1)) = None ->
     server.shareExported (manager_after (Mount P A m1 h1)) = true /\
     In (EvCreateExport (volume.Name (server.vol m)) None) (events (Mount P A m1 h1)) /\
     In (EvReloadExport None) (events (Mount P A m1 h1))).
Proof.
  intros Hname Hrun Hrun1 m1 h1. subst m1 h1.
  rewrite (Unmount_flag_false P A m h Hname Hrun).
  set (m1 := {| server.vol := server.vol m; server.shareExported := false |}).
  assert (Hname1 : volume.Name (server.vol m1) <> "") by exact Hname.
  destruct (Mount_slow_path P A m1 _ Hname1 Hrun1 eq_refl) as (Hq & Hok).
  split; [exact Hq |]. intros Hnoerr.
  destruct (Mount_no_error_exported P A m1 _ Hname1 Hrun1 Hnoerr) as (Hexp & _).
  destruct (Hok Hnoerr) as (Hc & Hr).
  split; [exact Hexp | split; [exact Hc | exact Hr]].
Qed.

(** ** The busy test *)

Lemma prefix_spec (sub s : string) :
  String.prefix sub s = true <-> exists post, s = (sub ++ post)%string.
Proof.
  revert s. induction sub as [| c sub IH]; intros s.
  - destruct s; simpl; (split; [intros _; eexists; reflexivity | reflexivity]).
  - destruct s as [| c' s]; simpl.
    + split; [discriminate | intros (post & H); discriminate].
    + destruct (Ascii.ascii_dec c c') as [<- | Hne].
      * rewrite IH. split; intros (post & H); exists post; congruence.
      * split; [discriminate | intros (post & H); congruence].
Qed.

Lemma Contains_app_r (a b sub : string) :
  Contains b sub = true -> Contains (a ++ b)%string sub = true.
Proof.
  intros Hb. induction a as [| c a IH]; simpl; [exact Hb |].
  rewrite IH. apply orb_true_r.
Qed.

(** The retry test of Unmount is a substring test: an error is taken to be
    busy exactly when its text has "target is busy" somewhere inside; nil
    is not busy, and text wrapped around a busy error keeps it busy. *)
Theorem is_busy_spec (e : string) :
  (is_busy (Some e) = true <->
   exists pre post, e = (pre ++ "target is busy" ++ post)%string) /\
  is_busy None = false /\
  (forall msg, is_busy (Some e) = true -> is_busy (Some (Wrap e msg)) = true).
Proof.
  split; [| split; [reflexivity |]].
  - unfold is_busy. generalize "target is busy". intros sub.
    induction e as [| c e IH].
    + change (Contains "" sub) with (String.prefix sub "" || false).
      rewrite orb_false_r. rewrite prefix_spec. split.
      * intros (post & H). exists "", post. exact H.
      * intros (pre & post & H). destruct pre as [| c pre]; [| discriminate].
        exists post. exact H.
    + change (Contains (String c e) sub)
        with (String.prefix sub (String c e) || Contains e sub).
      rewrite orb_true_iff, IH, prefix_spec. split.
      * intros [(post & H) | (pre & post & H)].
        -- exists "", post. exact H.
        -- exists (String c pre), post. simpl. congruence.
      * intros (pre & post & H). destruct pre as [| c' pre].
        -- left. exists post. exact H.
        -- right. exists pre, post. simpl in H. congruence.
  - intros msg Hb. unfold is_busy, Wrap in *.
    apply Contains_app_r. apply Contains_app_r. exact Hb.
Qed.

Lemma busy_query_attempts (evs : list Event) :
  Forall (fun ev =>
            (exists mp b e, ev = EvIsMountPoint mp (b, Some e) /\
                            Contains e "target is busy" = true) \/
            exists d, ev = EvSleep d) evs ->
  Forall (fun e => is_busy e = true) (attempt_errors evs) /\
  existsb is_UnmountVolume evs = false.
Proof.
  induction 1 as [| ev evs Hev _ (IHa & IHu)]; simpl.
  - split; [constructor | reflexivity].
  - destruct Hev as [(mp & b & e & -> & Hb) | (d & ->)];
      [destruct b |]; simpl.
    1, 2: split; [| exact IHu]; (constructor; [| exact IHa]);
      unfold is_busy, Wrap; apply Contains_app_r; apply Contains_app_r; exact Hb.
    split; assumption.
Qed.

(** The retry applies to whatever error an attempt returns, the failure of
    the mount-point query included: when every query fails with a text
    that has "target is busy" in it, Unmount, once the unexport has
    succeeded, makes all 30 queries, never calls the OS unmount, and
    returns an internal error with a nil response. *)
Theorem Unmount_retries_busy_query (P : Platform) (A : Adapters)
    (m : server.ShareManager) (h : History) :
  query_always_busy A ->
  In (EvReloadExport None) (events (Unmount P A m h)) ->
  length (filter is_IsMountPoint (events (Unmount P A m h))) = unmountRetryCount /\
  existsb is_UnmountVolume (events (Unmount P A m h)) = false /\
  fst (result (Unmount P A m h)) = None /\
  has_code grpccodes.Internal (result (Unmount P A m h)).
Proof.
  intros Hq.
  assert (Hloop : forall v n e m' h',
            Forall (fun ev =>
                      (exists mp b e, ev = EvIsMountPoint mp (b, Some e) /\
                                      Contains e "target is busy" = true) \/
                      exists d, ev = EvSleep d)
                   (events (unmount_loop P A v n e m' h'))).
  { intros. apply unmount_loop_Forall.
    - intros m0 h0. unfold unmount. unfold_run.
      match goal with
      | |- context [IsMountPoint A ?hh ?pp] =>
          destruct (Hq hh pp) as (b & e0 & Heq & Hb); rewrite Heq
      end.
      simpl. constructor; [| constructor]. left. eauto.
    - right. eauto. }
  unfold Unmount, nfsServerIsRunning, unexport. unfold_run.
  repeat split_oracle; intros Hin;
    try (exfalso; clear - Hin; simpl in Hin; intuition discriminate);
    match goal with
    | H : unmount_loop P A ?v ?n ?e ?m' ?h' = _ |- _ =>
        specialize (Hloop v n e m' h'); rewrite H in Hloop;
        unfold events in Hloop; simpl in Hloop;
        apply busy_query_attempts in Hloop; destruct Hloop as (Hall & Hnu)
    end;
    use_loop_spec; destruct Lout as (pre & Hpre & _ & _ & Hfull);
    rewrite Hpre in Hall;
    apply Forall_app in Hall; destruct Hall as (_ & Hlast);
    apply Forall_inv in Hlast; simpl in Hlast; try discriminate;
    rewrite ?app_nil_r; rewrite Lcnt, (Hfull Hlast);
    repeat split; try assumption; eexists; reflexivity.
Qed.

(** ** The health stream *)


(** ** The further properties at concrete collaborators *)

Example Watch_flaky_stream :
  Watch_prefix flaky_stream (NewShareManagerHealthCheckServer None) 3 [] =
  [WSend {| healthpb.Status := healthpb.NOT_SERVING |} None; WSleep Second;
   WSend {| healthpb.Status := healthpb.NOT_SERVING |}
     (Some "transport is closing"); WSleep Second;
   WSend {| healthpb.Status := healthpb.NOT_SERVING |} None; WSleep Second].
Proof. reflexivity. Qed.

Lemma server_not_running_noop_witness :
  let A := with_process_and_device (Some "process not found") true healthy in
  let m := example_manager "vol1" false true in
  Unmount example_platform A m [] =
    (success, m, [EvFindProcessByName "ganesha.nfsd" (Some "process not found")]).
Proof.
  intros A m.
  apply (server_not_running_noop example_platform A m [] "process not found").
  - discriminate.
  - reflexivity.
Defined.

Lemma invalid_device_failed_precondition_witness :
  let A := with_process_and_device None false healthy in
  let m := example_manager "vol1" false true in
  result (FilesystemResize example_platform A m []) =
    (Some emptypb.mkEmpty,
     grpcstatus.Error grpccodes.FailedPrecondition "volume vol1 is not valid").
Proof.
  intros A m.
  destruct (invalid_device_failed_precondition example_platform A false m []
              "/dev/longhorn/vol1") as (_ & Hresize).
  destruct Hresize as (Hres & _); [in_list | exact Hres].
Defined.

Lemma Mount_never_tears_down_witness :
  let A := scripted (false, None) 2049 "ext4" None never_busy (Some "no space left") in
  let m := example_manager "vol1" false false in
  has_code grpccodes.Internal (result (Mount example_platform A m [])) /\
  existsb is_UnmountVolume (events (Mount example_platform A m [])) = false.
Proof.
  intros A m.
  destruct (Mount_never_tears_down example_platform A m []) as (_ & Hno).
  apply (Hno (example_volume "vol1" false) "/dev/longhorn/vol1" "/export/vol1").
  - in_list.
  - reflexivity.
Defined.

Lemma FilesystemResize_encrypted_order_witness :
  let m := example_manager "vol1" true true in
  In (EvResizeEncryptoDevice "vol1" "v1" "secret" None)
     (events (FilesystemResize example_platform healthy m [])).
Proof.
  intros m.
  destruct (FilesystemResize_encrypted_order example_platform healthy m [] eq_refl)
    as (Horder & _).
  destruct (Horder eq_refl) as (_ & Henc). exact Henc.
Defined.

Lemma FilesystemTrim_runs_trim_last_witness :
  let m := example_manager "vol1" false true in
  result (FilesystemTrim example_platform healthy false m []) = success.
Proof.
  intros m.
  destruct (FilesystemTrim_runs_trim_last example_platform healthy false m []
              [] ["/export/vol1"] "fstrim" 60 None) as (_ & Hres).
  - in_list.
  - exact Hres.
Defined.

Lemma FilesystemTrim_success_iff_witness :
  let m := example_manager "vol1" false true in
  result (FilesystemTrim example_platform healthy false m []) = success.
Proof.
  intros m.
  apply (FilesystemTrim_success_iff example_platform healthy false m []).
  - discriminate.
  - in_list.
Defined.

Lemma FilesystemTrim_follows_request_flag_witness :
  result (FilesystemTrim example_platform healthy true
            (example_manager "vol1" false true) []) =
  result (FilesystemTrim example_platform healthy true
            (example_manager "vol1" true false) []).
Proof.
  apply (FilesystemTrim_follows_request_flag example_platform healthy true
           (example_manager "vol1" false true) (example_manager "vol1" true false) []);
    reflexivity.
Defined.

Lemma Unmount_not_mount_point_succeeds_witness :
  let A := scripted (false, None) 2049 "ext4" None never_busy None in
  let m := example_manager "vol1" false true in
  result (Unmount example_platform A m []) = success /\
  server.shareExported (manager_after (Unmount example_platform A m [])) = false.
Proof.
  intros A m.
  destruct (Unmount_not_mount_point_succeeds example_platform A m [] "/export/vol1")
    as (Hres & Hflag & _).
  - in_list.
  - split; assumption.
Defined.

Lemma Unmount_then_Mount_witness :
  let m := example_manager "vol1" false true in
  let u := Unmount example_platform healthy m [] in
  server.shareExported
    (manager_after (Mount example_platform healthy (manager_after u)
                      ([] ++ events u))) = true.
Proof.
  intros m u.
  assert (Hname : volume.Name (server.vol m) <> "") by discriminate.
  destruct (Unmount_then_Mount example_platform healthy m [] Hname eq_refl eq_refl)
    as (_ & Hok).
  destruct (Hok eq_refl) as (Hflag & _). exact Hflag.
Defined.

Lemma Unmount_retries_busy_query_witness :
  let A := scripted (false, Some "stat /export/vol1: target is busy")
             2049 "ext4" None never_busy None in
  let m := example_manager "vol1" false true in
  query_always_busy A /\
  length (filter is_IsMountPoint (events (Unmount example_platform A m []))) = 30.
Proof.
  intros A m.
  assert (Hq : query_always_busy A).
  { intros h p. exists false, "stat /export/vol1: target is busy".
    split; reflexivity. }
  split; [exact Hq |].
  apply (Unmount_retries_busy_query example_platform A m [] Hq).
  vm_compute. repeat (first [left; reflexivity | right]).
Defined.

Lemma Mount_twice_healthy_witness :
  let m := example_manager "vol1" false false in
  mount_adapters_succeed healthy /\
  result (Mount example_platform healthy m []) = success /\
  server.shareExported (manager_after (Mount example_platform healthy m [])) = true.
Proof.
  intros m.
  assert (HA : mount_adapters_succeed healthy)
    by (repeat split; intros; reflexivity).
  split; [exact HA |].
  destruct (Mount_twice_healthy example_platform healthy m [] HA) as (Hres & Hflag & _).
  - discriminate.
  - split; assumption.
Defined.
